(** * Shallow embedding of deep_research_openai.py

    The Streamlit front-end of the LLaMA deep-research agent: session-state
    credentials, [call_llama] (completion endpoint), [deep_research]
    (Firecrawl), [run_research_process] (the orchestration) and the
    "Start Research" trigger.

    Effects are written with a small writer/exception monad: a computation
    returns a Python outcome (a value or a raised exception) together with
    the list of observable events it produced, in order (network requests,
    Streamlit warnings, errors and markdown).  The two remote services are
    the fields of an [env] record; every theorem quantifies over them. *)

From Stdlib Require Import String Ascii List ZArith NArith Bool Lia.
Import ListNotations.
Open Scope list_scope.
Open Scope string_scope.
Open Scope nat_scope.
Set Warnings "-register-all".

(** ** Python values *)

(** Values produced by [json.loads]: [None], booleans, ints, floats (kept as
    their Python [repr]), strings, lists and dicts (a decoded dict has
    distinct keys, kept in insertion order). *)
Inductive json : Type :=
| JNull
| JBool (b : bool)
| JInt (z : Z)
| JFloat (r : string)
| JStr (s : string)
| JArr (l : list json)
| JObj (kvs : list (string * json)).

(** Python exception classes that occur in this program. The last three do
    not derive from [Exception] (they derive from [BaseException] only);
    [ScriptControlException] is Streamlit's stop/rerun signal. *)
Inductive exc_class : Type :=
| Exception
| KeyError
| IndexError
| TypeError
| AttributeError
| JSONDecodeError
| RequestException
| KeyboardInterrupt
| SystemExit
| ScriptControlException.

Definition is_Exception (c : exc_class) : bool :=
  match c with
  | KeyboardInterrupt | SystemExit | ScriptControlException => false
  | _ => true
  end.

Inductive exc : Type := PyExc (cls : exc_class) (msg : string).

(** [str(e)] *)
Definition exc_str (e : exc) : string := match e with PyExc _ m => m end.

Inductive outcome (A : Type) : Type :=
| Ret (a : A)
| Raise (e : exc).
Arguments Ret {A} a.
Arguments Raise {A} e.

(** ** Strings as Python prints them *)

Definition empty : string := EmptyString.
Definition dquote : ascii := ascii_of_nat 34.
Definition squote : ascii := ascii_of_nat 39.
Definition bslash : ascii := ascii_of_nat 92.
Definition nl : string := String (ascii_of_nat 10) EmptyString.

(** Truthiness of a Python [str]. *)
Definition py_truthy (s : string) : bool := negb (String.eqb s empty).

(** [a and b] on strings returns one of the operands. *)
Definition py_and (a b : string) : string := if py_truthy a then b else a.

Definition digit_char (d : N) : ascii := ascii_of_N (48 + d).

Fixpoint n_digits (fuel : nat) (n : N) (acc : string) : string :=
  match fuel with
  | O => acc
  | S f =>
      let acc' := String (digit_char (N.modulo n 10)) acc in
      if N.ltb n 10 then acc' else n_digits f (N.div n 10) acc'
  end.

Definition N_to_dec (n : N) : string := n_digits (S (N.size_nat n)) n empty.

(** [str(n)] for a Python int. *)
Definition z_to_dec (z : Z) : string :=
  match z with
  | Zneg p => "-" ++ N_to_dec (Npos p)
  | _ => N_to_dec (Z.to_N z)
  end.

(** [str.isspace] on code points 0..255. *)
Definition py_isspace (c : ascii) : bool :=
  let n := nat_of_ascii c in
  ((9 <=? n) && (n <=? 13)) || ((28 <=? n) && (n <=? 32))
  || (n =? 133) || (n =? 160).

Fixpoint lstrip (s : string) : string :=
  match s with
  | EmptyString => EmptyString
  | String c t => if py_isspace c then lstrip t else s
  end.

Fixpoint str_rev (s : string) : string :=
  match s with
  | EmptyString => EmptyString
  | String c t => str_rev t ++ String c EmptyString
  end.

Definition rstrip (s : string) : string := str_rev (lstrip (str_rev s)).

(** [str.strip()] with no argument. *)
Definition py_strip (s : string) : string := rstrip (lstrip s).

Fixpoint has_char (c : ascii) (s : string) : bool :=
  match s with
  | EmptyString => false
  | String d t => Ascii.eqb c d || has_char c t
  end.

Definition hex_digit (n : nat) : ascii :=
  ascii_of_nat (if n <? 10 then 48 + n else 87 + n).

(** Code points that [repr] writes as [\xNN]. *)
Definition py_nonprintable (n : nat) : bool :=
  (n <? 32) || (n =? 127) || ((128 <=? n) && (n <=? 160)) || (n =? 173).

Definition repr_char (q c : ascii) : string :=
  let n := nat_of_ascii c in
  if Ascii.eqb c q || Ascii.eqb c bslash then String bslash (String c EmptyString)
  else if n =? 9 then String bslash "t"
  else if n =? 10 then String bslash "n"
  else if n =? 13 then String bslash "r"
  else if py_nonprintable n then
    String bslash (String "x" (String (hex_digit (n / 16))
                                 (String (hex_digit (n mod 16)) EmptyString)))
  else String c EmptyString.

Fixpoint repr_chars (q : ascii) (s : string) : string :=
  match s with
  | EmptyString => EmptyString
  | String c t => repr_char q c ++ repr_chars q t
  end.

(** [repr(s)] of a [str]: single quotes unless the text has a single quote
    and no double quote. *)
Definition repr_str (s : string) : string :=
  let q := if has_char squote s && negb (has_char dquote s) then dquote else squote in
  String q (repr_chars q s ++ String q EmptyString).

(** [repr(v)]: how a decoded JSON value prints inside a list or dict. *)
Fixpoint py_repr (v : json) : string :=
  match v with
  | JNull => "None"
  | JBool true => "True"
  | JBool false => "False"
  | JInt z => z_to_dec z
  | JFloat r => r
  | JStr s => repr_str s
  | JArr l =>
      "[" ++ (fix go (l : list json) : string :=
                match l with
                | [] => empty
                | [x] => py_repr x
                | x :: t => py_repr x ++ ", " ++ go t
                end) l ++ "]"
  | JObj kvs =>
      "{" ++ (fix go (kvs : list (string * json)) : string :=
                match kvs with
                | [] => empty
                | [(k, x)] => repr_str k ++ ": " ++ py_repr x
                | (k, x) :: t => repr_str k ++ ": " ++ py_repr x ++ ", " ++ go t
                end) kvs ++ "}"
  end.

(** [str(v)], which is what an f-string replacement field produces. *)
Definition py_str (v : json) : string :=
  match v with
  | JStr s => s
  | _ => py_repr v
  end.

Definition py_type_name (v : json) : string :=
  match v with
  | JNull => "NoneType"
  | JBool _ => "bool"
  | JInt _ => "int"
  | JFloat _ => "float"
  | JStr _ => "str"
  | JArr _ => "list"
  | JObj _ => "dict"
  end.

Fixpoint dict_lookup (kvs : list (string * json)) (k : string) : option json :=
  match kvs with
  | [] => None
  | (k', v) :: t => if String.eqb k k' then Some v else dict_lookup t k
  end.

(** [v[k]] with a string key. *)
Definition py_getitem (v : json) (k : string) : outcome json :=
  match v with
  | JObj kvs =>
      match dict_lookup kvs k with
      | Some x => Ret x
      | None => Raise (PyExc KeyError (repr_str k))
      end
  | JStr _ => Raise (PyExc TypeError "string indices must be integers, not 'str'")
  | JArr _ => Raise (PyExc TypeError "list indices must be integers or slices, not str")
  | _ => Raise (PyExc TypeError ("'" ++ py_type_name v ++ "' object is not subscriptable"))
  end.

(** [l[0]] on a list. *)
Definition py_index0 (l : list json) : outcome json :=
  match l with
  | [] => Raise (PyExc IndexError "list index out of range")
  | x :: _ => Ret x
  end.

(** [v.get(k, d)]. *)
Definition py_get (v : json) (k : string) (d : json) : outcome json :=
  match v with
  | JObj kvs =>
      match dict_lookup kvs k with
      | Some x => Ret x
      | None => Ret d
      end
  | _ => Raise (PyExc AttributeError
                  ("'" ++ py_type_name v ++ "' object has no attribute 'get'"))
  end.

(** [v.strip()]. *)
Definition py_strip_value (v : json) : outcome json :=
  match v with
  | JStr s => Ret (JStr (py_strip s))
  | _ => Raise (PyExc AttributeError
                  ("'" ++ py_type_name v ++ "' object has no attribute 'strip'"))
  end.

(** [len(v)]. *)
Definition py_len (v : json) : outcome Z :=
  match v with
  | JStr s => Ret (Z.of_nat (String.length s))
  | JArr l => Ret (Z.of_nat (length l))
  | JObj kvs => Ret (Z.of_nat (length kvs))
  | _ => Raise (PyExc TypeError
                  ("object of type '" ++ py_type_name v ++ "' has no len()"))
  end.

(** [s.replace(' ', '_')]. *)
Fixpoint replace_space (s : string) : string :=
  match s with
  | EmptyString => EmptyString
  | String c t =>
      String (if Ascii.eqb c " "%char then "_"%char else c) (replace_space t)
  end.

(** ** Effects *)

Record http_response : Type := {
  status_code : Z;
  response_json : option json;   (** [None]: the body is not JSON *)
  response_text : string
}.

(** Observable events, in the order the script produces them. *)
Inductive event : Type :=
| EvDeepResearch (api_key query : string) (params : list (string * Z))
| EvPost (url : string) (headers : list (string * string)) (payload : json)
| EvError (msg : string)
| EvWarning (msg : string)
| EvMarkdown (body : string)
| EvDownload (data file_name : string).

Definition is_network (ev : event) : bool :=
  match ev with
  | EvDeepResearch _ _ _ | EvPost _ _ _ => true
  | _ => false
  end.

Definition is_post (ev : event) : bool :=
  match ev with EvPost _ _ _ => true | _ => false end.

(** Writer/exception monad. *)
Definition M (A : Type) : Type := (outcome A * list event)%type.

Definition ret {A} (a : A) : M A := (Ret a, []).

Definition bind {A B} (m : M A) (f : A -> M B) : M B :=
  match m with
  | (Ret a, w) => let '(r, w') := f a in (r, (w ++ w')%list)
  | (Raise e, w) => (Raise e, w)
  end.

Notation "x <- m ;; k" := (bind m (fun x => k))
  (at level 61, m at next level, right associativity).
Notation "m ;;; k" := (bind m (fun _ : unit => k))
  (at level 61, right associativity).

Definition emit (ev : event) : M unit := (Ret tt, [ev]).

Definition lift {A} (o : outcome A) : M A := (o, []).

(** [try: m  except Exception as e: h(e)]: exceptions outside the
    [Exception] hierarchy are not caught. *)
Definition try_except {A} (m : M A) (h : exc -> M A) : M A :=
  match m with
  | (Raise e, w) =>
      if is_Exception (match e with PyExc c _ => c end)
      then let '(r, w') := h e in (r, (w ++ w')%list)
      else (Raise e, w)
  | ok => ok
  end.

(** The two remote services: [FirecrawlApp(api_key=k).deep_research(query=q,
    params=p, ...)] returning its decoded result or raising (this also covers
    the constructor and exceptions propagated out of the [on_activity]
    callback), and [requests.post(url, headers=h, json=p)]. *)
Record env : Type := {
  firecrawl_deep_research : string -> string -> list (string * Z) -> outcome json;
  requests_post : string -> list (string * string) -> json -> outcome http_response
}.

(** [st.session_state] once the initialisation block (lines 15-20) has run:
    all three keys are present and hold strings. *)
Record session : Type := {
  llama_api_key : string;
  llama_endpoint : string;
  firecrawl_api_key : string
}.

(** ** call_llama *)

Definition llama_headers (ss : session) : list (string * string) :=
  app [("Content-Type", "application/json")]
      (if py_truthy (llama_api_key ss)
       then [("Authorization", "Bearer " ++ llama_api_key ss)] else []).

Definition llama_payload (prompt : string) : json :=
  JObj [("inputs", JStr prompt);
        ("parameters", JObj [("max_new_tokens", JInt 1024);
                             ("temperature", JFloat "0.7")])].

(** [response.json()] *)
Definition response_json_value (resp : http_response) : outcome json :=
  match response_json resp with
  | Some v => Ret v
  | None => Raise (PyExc JSONDecodeError "Expecting value: line 1 column 1 (char 0)")
  end.

(** Lines 77-81: what [call_llama] does with the response. *)
Definition llama_result (resp : http_response) : M json :=
  if Z.eqb (status_code resp) 200 then
    result <- lift (response_json_value resp) ;;
    match result with
    | JArr l => first <- lift (py_index0 l) ;; lift (py_getitem first "generated_text")
    | _ => g <- lift (py_get result "generated_text" (JStr empty)) ;;
           lift (py_strip_value g)
    end
  else
    lift (Raise (PyExc Exception
                   ("LLaMA API error: " ++ z_to_dec (status_code resp)
                    ++ " - " ++ response_text resp))).

Definition call_llama (E : env) (ss : session) (prompt : string) : M json :=
  let url := llama_endpoint ss in
  let headers := llama_headers ss in
  let payload := llama_payload prompt in
  emit (EvPost url headers payload) ;;;
  response <- lift (requests_post E url headers payload) ;;
  llama_result response.

(** ** deep_research *)

(** The result dict: [{success: True, final_analysis, sources_count,
    sources}] or [{error, success: False}]. *)
Inductive research_result : Type :=
| RSuccess (final_analysis : json) (sources_count : Z) (sources : json)
| RFailure (error : string).

Definition research_success (r : research_result) : bool :=
  match r with RSuccess _ _ _ => true | RFailure _ => false end.

Definition research_params (max_depth time_limit max_urls : Z) : list (string * Z) :=
  [("maxDepth", max_depth); ("timeLimit", time_limit); ("maxUrls", max_urls)].

(** The [try] block of [deep_research] (lines 89-111). *)
Definition research_body (E : env) (ss : session) (query : string)
    (max_depth time_limit max_urls : Z) : M research_result :=
  let params := research_params max_depth time_limit max_urls in
  emit (EvDeepResearch (firecrawl_api_key ss) query params) ;;;
  results <- lift (firecrawl_deep_research E (firecrawl_api_key ss) query params) ;;
  d1 <- lift (py_getitem results "data") ;;
  final_analysis <- lift (py_getitem d1 "finalAnalysis") ;;
  d2 <- lift (py_getitem results "data") ;;
  s2 <- lift (py_getitem d2 "sources") ;;
  sources_count <- lift (py_len s2) ;;
  d3 <- lift (py_getitem results "data") ;;
  sources <- lift (py_getitem d3 "sources") ;;
  ret (RSuccess final_analysis sources_count sources).

Definition deep_research (E : env) (ss : session) (query : string)
    (max_depth time_limit max_urls : Z) : M research_result :=
  try_except
    (research_body E ss query max_depth time_limit max_urls)
    (fun e =>
       emit (EvError ("Deep research error: " ++ exc_str e)) ;;;
       ret (RFailure (exc_str e))).

(** ** run_research_process *)

Definition research_failed_msg : string := "Research failed. Please try again.".

Definition initial_prompt (topic final_analysis sources : string) : string :=
  nl ++ "You are a research assistant. Based on the analysis and sources below, generate a clear, structured research report." ++ nl
  ++ nl ++ "Topic: " ++ topic ++ nl
  ++ nl ++ "Analysis:" ++ nl ++ final_analysis ++ nl
  ++ nl ++ "Sources:" ++ nl ++ sources ++ nl
  ++ nl ++ "Write a concise research report with citations and key insights." ++ nl.

Definition enhancement_prompt (initial_report : string) : string :=
  nl ++ "Enhance the following research report by:" ++ nl
  ++ "- Adding more detail to complex parts" ++ nl
  ++ "- Including examples, case studies, and applications" ++ nl
  ++ "- Describing visual elements like diagrams" ++ nl
  ++ "- Making the report comprehensive but factual" ++ nl
  ++ nl ++ "Original Report:" ++ nl ++ initial_report ++ nl.

Definition run_research_process (E : env) (ss : session) (topic : string) : M json :=
  research_result <- deep_research E ss topic 3 180 10 ;;
  match research_result with
  | RFailure _ => ret (JStr research_failed_msg)
  | RSuccess final_analysis _ sources =>
      let p1 := initial_prompt topic (py_str final_analysis) (py_str sources) in
      initial_report <- call_llama E ss p1 ;;
      emit (EvMarkdown (py_str initial_report)) ;;;
      let p2 := enhancement_prompt (py_str initial_report) in
      enhanced_report <- call_llama E ss p2 ;;
      ret enhanced_report
  end.

(** ** The "Start Research" trigger (lines 163-185) *)

(** [disabled=not (research_topic and st.session_state.llama_endpoint and
    st.session_state.firecrawl_api_key)] *)
Definition start_research_disabled (research_topic : string) (ss : session) : bool :=
  negb (py_truthy (py_and (py_and research_topic (llama_endpoint ss))
                          (firecrawl_api_key ss))).

Definition warn_topic : string := "Please enter a research topic.".
Definition warn_firecrawl : string := "Please enter the Firecrawl API key.".
Definition warn_endpoint : string := "Please enter the LLaMA API endpoint.".

(** [st.download_button] accepts [str] data; other Python values are
    refused with a [StreamlitAPIException] (an [Exception]). *)
Definition download_button (data : json) (file_name : string) : M unit :=
  match data with
  | JStr s => emit (EvDownload s file_name)
  | _ => lift (Raise (PyExc Exception
                        ("Invalid binary data format: <class '" ++ py_type_name data ++ "'>")))
  end.

(** The body of [if st.button(...):]. *)
Definition on_start_research (E : env) (ss : session) (research_topic : string) : M unit :=
  if negb (py_truthy research_topic) then emit (EvWarning warn_topic)
  else if negb (py_truthy (firecrawl_api_key ss)) then emit (EvWarning warn_firecrawl)
  else if negb (py_truthy (llama_endpoint ss)) then emit (EvWarning warn_endpoint)
  else
    try_except
      (enhanced_report <- run_research_process E ss research_topic ;;
       emit (EvMarkdown "## Enhanced Research Report") ;;;
       emit (EvMarkdown (py_str enhanced_report)) ;;;
       download_button enhanced_report (replace_space research_topic ++ "_report.md"))
      (fun e => emit (EvError ("An error occurred: " ++ exc_str e))).

(** [st.button(..., disabled=...)] returns the click signal the browser
    sent with this rerun.  [disabled=] only affects how the button is drawn
    for the next render, so a click on a button that was enabled when last
    drawn is returned even when this rerun computes [disabled=True] (e.g. the
    topic was cleared and the button clicked in the same interaction). *)
Definition start_research_button (clicked : bool) : bool := clicked.

Definition trigger (E : env) (ss : session) (research_topic : string) (clicked : bool) : M unit :=
  if start_research_button clicked
  then on_start_research E ss research_topic
  else ret tt.

(** ** Session-scoped credentials (lines 14-46) *)

(** [st.session_state] between two reruns: [None] when the key is absent. *)
Record raw_session : Type := {
  ss_llama_api_key : option string;
  ss_llama_endpoint : option string;
  ss_firecrawl_api_key : option string
}.

Definition init_default (o : option string) : string :=
  match o with Some s => s | None => empty end.

(** Lines 15-20: [if key not in st.session_state: st.session_state.key = ""]. *)
Definition init_session (r : raw_session) : session := {|
  llama_api_key := init_default (ss_llama_api_key r);
  llama_endpoint := init_default (ss_llama_endpoint r);
  firecrawl_api_key := init_default (ss_firecrawl_api_key r)
|}.

(** What the three sidebar [st.text_input] widgets return on this rerun. *)
Record sidebar_inputs : Type := {
  in_llama_endpoint : string;
  in_llama_api_key : string;
  in_firecrawl_api_key : string
}.

Definition set_llama_endpoint (ss : session) (v : string) : session :=
  {| llama_api_key := llama_api_key ss; llama_endpoint := v;
     firecrawl_api_key := firecrawl_api_key ss |}.
Definition set_llama_api_key (ss : session) (v : string) : session :=
  {| llama_api_key := v; llama_endpoint := llama_endpoint ss;
     firecrawl_api_key := firecrawl_api_key ss |}.
Definition set_firecrawl_api_key (ss : session) (v : string) : session :=
  {| llama_api_key := llama_api_key ss; llama_endpoint := llama_endpoint ss;
     firecrawl_api_key := v |}.

(** Lines 41-46. *)
Definition sidebar_update (i : sidebar_inputs) (ss : session) : session :=
  let ss := if py_truthy (in_llama_endpoint i)
            then set_llama_endpoint ss (in_llama_endpoint i) else ss in
  let ss := if py_truthy (in_llama_api_key i)
            then set_llama_api_key ss (in_llama_api_key i) else ss in
  if py_truthy (in_firecrawl_api_key i)
  then set_firecrawl_api_key ss (in_firecrawl_api_key i) else ss.

Definition store (ss : session) : raw_session := {|
  ss_llama_api_key := Some (llama_api_key ss);
  ss_llama_endpoint := Some (llama_endpoint ss);
  ss_firecrawl_api_key := Some (firecrawl_api_key ss)
|}.

(** One rerun of the script as far as [st.session_state] is concerned: no
    line after 46 writes to it. *)
Definition script_rerun (i : sidebar_inputs) (r : raw_session) : raw_session :=
  store (sidebar_update i (init_session r)).

Fixpoint run_session (runs : list sidebar_inputs) (r : raw_session) : raw_session :=
  match runs with
  | [] => r
  | i :: t => run_session t (script_rerun i r)
  end.

Inductive credential : Type := CEndpoint | CApiKey | CFirecrawlKey.

Definition stored (c : credential) (r : raw_session) : option string :=
  match c with
  | CEndpoint => ss_llama_endpoint r
  | CApiKey => ss_llama_api_key r
  | CFirecrawlKey => ss_firecrawl_api_key r
  end.

Definition entered (c : credential) (i : sidebar_inputs) : string :=
  match c with
  | CEndpoint => in_llama_endpoint i
  | CApiKey => in_llama_api_key i
  | CFirecrawlKey => in_firecrawl_api_key i
  end.

(** ** Concrete environments *)

Definition demo_session : session :=
  {| llama_api_key := empty; llama_endpoint := "https://llama.example/v1";
     firecrawl_api_key := "fc-key" |}.

Definition demo_research : json :=
  JObj [("data", JObj [("finalAnalysis", JStr "X"); ("sources", JArr [])])].

Definition resp_of (code : Z) (body : option json) : http_response :=
  {| status_code := code; response_json := body; response_text := "body" |}.

(** Firecrawl answers [fc]; the completion endpoint always answers [resp]. *)
Definition const_env (fc : outcome json) (resp : outcome http_response) : env :=
  {| firecrawl_deep_research := fun _ _ _ => fc;
     requests_post := fun _ _ _ => resp |}.

(** * Properties *)

Lemma fst_bind {A B} (m : M A) (f : A -> M B) :
  fst (bind m f) = match fst m with Ret a => fst (f a) | Raise e => Raise e end.
Proof. destruct m as [[a|e] w]; cbn; [destruct (f a)|]; reflexivity. Qed.

Lemma snd_bind {A B} (m : M A) (f : A -> M B) :
  snd (bind m f) = (snd m ++ match fst m with Ret a => snd (f a) | Raise _ => [] end)%list.
Proof.
  destruct m as [[a|e] w]; cbn; [destruct (f a); reflexivity | now rewrite app_nil_r].
Qed.

(** Case on every [match] scrutinee left in the goal. *)
Ltac split_matches :=
  repeat (cbn; match goal with
               | |- context [match ?x with _ => _ end] =>
                   let H := fresh "Hm" in destruct x eqn:H
               end);
  cbn; try reflexivity.

(** Push [fst]/[snd] through [bind] and case on what is left. *)
Ltac trace_simpl :=
  repeat (first [ rewrite snd_bind | rewrite fst_bind
                | match goal with
                  | |- context [match ?x with _ => _ end] =>
                      let H := fresh "Hm" in destruct x eqn:H
                  end ];
          cbn [lift emit ret fst snd app]);
  try reflexivity; try congruence.

Definition contains (s t : string) : Prop := exists pre post, s = pre ++ t ++ post.

Lemma str_app_assoc (a b c : string) : (a ++ b) ++ c = a ++ b ++ c.
Proof. induction a as [|x a IH]; cbn; [reflexivity | now rewrite IH]. Qed.

Lemma contains_here (t v : string) : contains (t ++ v) t.
Proof. exists empty, v. reflexivity. Qed.

Lemma contains_there (u s t : string) : contains s t -> contains (u ++ s) t.
Proof.
  intros [pre [post ->]]. exists (u ++ pre), post. now rewrite str_app_assoc.
Qed.

Ltac find_in := repeat first [ apply contains_here | apply contains_there ].

Lemma call_llama_fst E ss prompt :
  fst (call_llama E ss prompt) =
  match requests_post E (llama_endpoint ss) (llama_headers ss) (llama_payload prompt) with
  | Ret resp => fst (llama_result resp)
  | Raise e => Raise e
  end.
Proof.
  unfold call_llama. rewrite fst_bind. cbn.
  destruct (requests_post _ _ _ _); cbn; [destruct (llama_result a)|]; reflexivity.
Qed.

Lemma call_llama_trace E ss prompt :
  snd (call_llama E ss prompt) =
  [EvPost (llama_endpoint ss) (llama_headers ss) (llama_payload prompt)].
Proof.
  unfold call_llama, llama_result. trace_simpl.
Qed.

(** C1: when the completion endpoint answers with a status other than 200,
    [call_llama] raises an [Exception] whose message contains the decimal
    status code, and returns no value. *)
Theorem call_llama_non_200_raises (E : env) (ss : session) (prompt : string)
    (resp : http_response) :
  requests_post E (llama_endpoint ss) (llama_headers ss) (llama_payload prompt) = Ret resp ->
  status_code resp <> 200%Z ->
  (exists msg, fst (call_llama E ss prompt) = Raise (PyExc Exception msg)
               /\ contains msg (z_to_dec (status_code resp)))
  /\ forall v, fst (call_llama E ss prompt) <> Ret v.
Proof.
  intros Hpost Hst.
  assert (Hres : fst (call_llama E ss prompt) =
                 Raise (PyExc Exception ("LLaMA API error: " ++ z_to_dec (status_code resp)
                                         ++ " - " ++ response_text resp))).
  { rewrite call_llama_fst, Hpost. unfold llama_result.
    apply Z.eqb_neq in Hst. rewrite Hst. reflexivity. }
  split.
  - eexists. split; [exact Hres|].
    exists "LLaMA API error: ", (" - " ++ response_text resp). reflexivity.
  - intros v. rewrite Hres. discriminate.
Qed.

Lemma call_llama_non_200_raises_witness :
  (exists msg,
     fst (call_llama (const_env (Ret demo_research) (Ret (resp_of 503 None)))
                     demo_session "p") = Raise (PyExc Exception msg)
     /\ contains msg "503")
  /\ forall v, fst (call_llama (const_env (Ret demo_research) (Ret (resp_of 503 None)))
                               demo_session "p") <> Ret v.
Proof.
  apply (call_llama_non_200_raises
           (const_env (Ret demo_research) (Ret (resp_of 503 None)))
           demo_session "p" (resp_of 503 None)); [reflexivity | discriminate].
Defined.

Definition gen_env (body : json) : env :=
  const_env (Ret demo_research) (Ret (resp_of 200 (Some body))).

(** C2 (as stated: an object body yields its [generated_text] field
    directly) fails: the object branch applies [.strip()]. *)
Lemma call_llama_object_not_direct :
  fst (call_llama (gen_env (JObj [("generated_text", JStr " hi")])) demo_session "p")
  = Ret (JStr "hi")
  /\ fst (call_llama (gen_env (JObj [("generated_text", JStr " hi")])) demo_session "p")
     <> Ret (JStr " hi").
Proof. split; [reflexivity | vm_compute; discriminate]. Qed.

(** C2 (amended): on an HTTP 200 answer, a list body whose element 0 is a
    dict with a [generated_text] field yields that field unchanged, and a
    dict body whose [generated_text] field is a string yields that string
    with leading and trailing whitespace removed ([str.strip]). *)
Theorem call_llama_extracts_generated_text (E : env) (ss : session) (prompt : string)
    (resp : http_response) :
  requests_post E (llama_endpoint ss) (llama_headers ss) (llama_payload prompt) = Ret resp ->
  status_code resp = 200%Z ->
  (forall kvs rest v,
     response_json resp = Some (JArr (JObj kvs :: rest)) ->
     dict_lookup kvs "generated_text" = Some v ->
     fst (call_llama E ss prompt) = Ret v)
  /\ (forall kvs s,
     response_json resp = Some (JObj kvs) ->
     dict_lookup kvs "generated_text" = Some (JStr s) ->
     fst (call_llama E ss prompt) = Ret (JStr (py_strip s))).
Proof.
  intros Hpost Hst. rewrite call_llama_fst, Hpost. unfold llama_result.
  rewrite Hst. cbn [Z.eqb Pos.eqb]. split.
  - intros kvs rest v Hj Hg. rewrite fst_bind. unfold response_json_value.
    rewrite Hj. cbn. rewrite Hg. reflexivity.
  - intros kvs s Hj Hg. rewrite fst_bind. unfold response_json_value.
    rewrite Hj. cbn. rewrite Hg. reflexivity.
Qed.

Lemma call_llama_extracts_generated_text_witness :
  fst (call_llama (gen_env (JArr [JObj [("generated_text", JStr " a ")]])) demo_session "p")
  = Ret (JStr " a ").
Proof.
  refine (proj1 (call_llama_extracts_generated_text
                   (gen_env (JArr [JObj [("generated_text", JStr " a ")]]))
                   demo_session "p"
                   (resp_of 200 (Some (JArr [JObj [("generated_text", JStr " a ")]])))
                   eq_refl eq_refl)
                [("generated_text", JStr " a ")] [] (JStr " a ") eq_refl eq_refl).
Defined.

(** C8 (as stated: every unexpected 200 body yields the empty string
    without raising) fails: an empty list body raises [IndexError]. *)
Lemma call_llama_empty_list_raises :
  fst (call_llama (gen_env (JArr [])) demo_session "p")
  = Raise (PyExc IndexError "list index out of range").
Proof. reflexivity. Qed.

(** C8 (amended): on an HTTP 200 answer whose body is a dict without a
    [generated_text] field, [call_llama] returns the empty string without
    raising; other unexpected bodies, such as an empty list or a JSON
    string, raise. *)
Theorem call_llama_missing_field_empty (E : env) (ss : session) (prompt : string)
    (resp : http_response) :
  requests_post E (llama_endpoint ss) (llama_headers ss) (llama_payload prompt) = Ret resp ->
  status_code resp = 200%Z ->
  (forall kvs,
     response_json resp = Some (JObj kvs) ->
     dict_lookup kvs "generated_text" = None ->
     fst (call_llama E ss prompt) = Ret (JStr empty))
  /\ (response_json resp = Some (JArr []) ->
      exists e, fst (call_llama E ss prompt) = Raise e)
  /\ (forall s, response_json resp = Some (JStr s) ->
      exists e, fst (call_llama E ss prompt) = Raise e).
Proof.
  intros Hpost Hst. rewrite call_llama_fst, Hpost. unfold llama_result.
  rewrite Hst. cbn [Z.eqb Pos.eqb]. rewrite fst_bind. unfold response_json_value.
  split; [|split].
  - intros kvs Hj Hg. rewrite Hj. cbn. rewrite Hg. reflexivity.
  - intros Hj. rewrite Hj. eexists. reflexivity.
  - intros s Hj. rewrite Hj. eexists. reflexivity.
Qed.

Lemma call_llama_missing_field_empty_witness :
  fst (call_llama (gen_env (JObj [("error", JStr "busy")])) demo_session "p")
  = Ret (JStr empty).
Proof.
  refine (proj1 (call_llama_missing_field_empty
                   (gen_env (JObj [("error", JStr "busy")])) demo_session "p"
                   (resp_of 200 (Some (JObj [("error", JStr "busy")])))
                   eq_refl eq_refl)
                [("error", JStr "busy")] eq_refl eq_refl).
Defined.

(** ** deep_research and run_research_process *)

Lemma research_body_trace E ss q a b c :
  snd (research_body E ss q a b c) =
  [EvDeepResearch (firecrawl_api_key ss) q (research_params a b c)].
Proof. unfold research_body. trace_simpl. Qed.

Lemma research_body_fst E ss q a b c :
  fst (research_body E ss q a b c) =
  match firecrawl_deep_research E (firecrawl_api_key ss) q (research_params a b c) with
  | Raise e => Raise e
  | Ret results =>
      match py_getitem results "data" with
      | Raise e => Raise e
      | Ret d =>
          match py_getitem d "finalAnalysis" with
          | Raise e => Raise e
          | Ret fa =>
              match py_getitem d "sources" with
              | Raise e => Raise e
              | Ret s =>
                  match py_len s with
                  | Raise e => Raise e
                  | Ret n => Ret (RSuccess fa n s)
                  end
              end
          end
      end
  end.
Proof. unfold research_body. trace_simpl. Qed.

(** Errors raised by the body itself (lookups, [len]) are [Exception]s. *)
Lemma research_body_raise_origin E ss q a b c e :
  fst (research_body E ss q a b c) = Raise e ->
  is_Exception (match e with PyExc c _ => c end) = false ->
  firecrawl_deep_research E (firecrawl_api_key ss) q (research_params a b c) = Raise e.
Proof.
  rewrite research_body_fst.
  destruct (firecrawl_deep_research _ _ _ _) as [results|e']; [|congruence].
  intros Hr Hc. exfalso.
  destruct results; cbn in Hr; try (inversion Hr; subst; discriminate).
  destruct (dict_lookup kvs "data") as [d|]; cbn in Hr; [|inversion Hr; subst; discriminate].
  destruct d; cbn in Hr; try (inversion Hr; subst; discriminate).
  destruct (dict_lookup kvs0 "finalAnalysis"); cbn in Hr; [|inversion Hr; subst; discriminate].
  destruct (dict_lookup kvs0 "sources") as [s|]; cbn in Hr; [|inversion Hr; subst; discriminate].
  destruct s; cbn in Hr; inversion Hr; subst; discriminate.
Qed.

Lemma deep_research_trace E ss q a b c :
  exists extra,
    snd (deep_research E ss q a b c) =
    EvDeepResearch (firecrawl_api_key ss) q (research_params a b c) :: extra
    /\ (extra = [] \/ exists m, extra = [EvError m])
    /\ (match fst (deep_research E ss q a b c) with
        | Ret (RSuccess _ _ _) => extra = []
        | _ => True
        end).
Proof.
  pose proof (research_body_trace E ss q a b c) as Ht.
  unfold deep_research, try_except.
  destruct (research_body E ss q a b c) as [[r|[cls m]] w]; cbn in Ht |- *; subst w.
  - exists []. destruct r; auto.
  - destruct (is_Exception cls); cbn.
    + eexists. split; [reflexivity|]. split; [right; eexists; reflexivity|exact I].
    + exists []. auto.
Qed.

Definition exc_cls (e : exc) : exc_class := match e with PyExc c _ => c end.

(** C5 (as stated: [deep_research] never raises) fails: [except Exception]
    lets a [KeyboardInterrupt] raised during the crawl propagate. *)
Lemma deep_research_interrupt_propagates :
  fst (deep_research (const_env (Raise (PyExc KeyboardInterrupt empty))
                                (Ret (resp_of 200 None)))
                     demo_session "topic" 3 180 10)
  = Raise (PyExc KeyboardInterrupt empty).
Proof. reflexivity. Qed.

(** C5 (amended): [deep_research] raises only exceptions outside the
    [Exception] hierarchy, and only those coming from the crawl itself; any
    [Exception] during the crawl or while reading its result gives
    [{success: False, error: str(e)}]; on success it gives
    [{success: True}] with [results['data']['finalAnalysis']],
    [len(results['data']['sources'])] and [results['data']['sources']]. *)
Theorem deep_research_catches_exceptions (E : env) (ss : session) (q : string)
    (a b c : Z) :
  match fst (deep_research E ss q a b c) with
  | Raise e =>
      is_Exception (exc_cls e) = false
      /\ firecrawl_deep_research E (firecrawl_api_key ss) q (research_params a b c) = Raise e
  | Ret (RFailure m) =>
      exists e, fst (research_body E ss q a b c) = Raise e
                /\ is_Exception (exc_cls e) = true /\ m = exc_str e
  | Ret (RSuccess fa n srcs) =>
      exists results data,
        firecrawl_deep_research E (firecrawl_api_key ss) q (research_params a b c) = Ret results
        /\ py_getitem results "data" = Ret data
        /\ py_getitem data "finalAnalysis" = Ret fa
        /\ py_getitem data "sources" = Ret srcs
        /\ py_len srcs = Ret n
  end.
Proof.
  pose proof (research_body_fst E ss q a b c) as Hf.
  pose proof (research_body_raise_origin E ss q a b c) as Ho.
  unfold deep_research, try_except.
  destruct (research_body E ss q a b c) as [[r|e] w] eqn:Hb; cbn in Hf, Ho |- *.
  - destruct r as [fa n srcs|m].
    + revert Hf.
      destruct (firecrawl_deep_research _ _ _ _) as [results|]; [|discriminate].
      destruct (py_getitem results "data") as [d|] eqn:Hd; [|discriminate].
      destruct (py_getitem d "finalAnalysis") eqn:Hfa; [|discriminate].
      destruct (py_getitem d "sources") eqn:Hs; [|discriminate].
      destruct (py_len _) eqn:Hn; [|discriminate].
      intros Heq. inversion Heq; subst.
      exists results, d. auto 6.
    + exfalso. revert Hf.
      destruct (firecrawl_deep_research _ _ _ _) as [results|]; [|discriminate].
      destruct (py_getitem results "data") as [d|]; [|discriminate].
      destruct (py_getitem d "finalAnalysis"); [|discriminate].
      destruct (py_getitem d "sources"); [|discriminate].
      destruct (py_len _); discriminate.
  - destruct e as [cls m]. cbn.
    destruct (is_Exception cls) eqn:Hc; cbn.
    + exists (PyExc cls m). auto.
    + split; [exact Hc|]. apply Ho; auto.
Qed.

(** C3: when the research step fails, [run_research_process] returns the
    fixed failure string and sends no request to the completion endpoint. *)
Theorem research_failure_short_circuits (E : env) (ss : session) (topic err : string)
    (w : list event) :
  deep_research E ss topic 3 180 10 = (Ret (RFailure err), w) ->
  run_research_process E ss topic = (Ret (JStr research_failed_msg), w)
  /\ Forall (fun ev => is_post ev = false) w.
Proof.
  intros H. unfold run_research_process. rewrite H. cbn. rewrite app_nil_r.
  split; [reflexivity|].
  destruct (deep_research_trace E ss topic 3 180 10) as [extra [Ht [Hx _]]].
  rewrite H in Ht. cbn in Ht. subst w.
  destruct Hx as [->|[m ->]]; repeat constructor.
Qed.

Definition fail_env : env :=
  const_env (Raise (PyExc RequestException "Unauthorized")) (Ret (resp_of 200 None)).

Lemma research_failure_short_circuits_witness :
  run_research_process fail_env demo_session "topic" =
    (Ret (JStr research_failed_msg), snd (deep_research fail_env demo_session "topic" 3 180 10))
  /\ Forall (fun ev => is_post ev = false)
            (snd (deep_research fail_env demo_session "topic" 3 180 10)).
Proof.
  apply (research_failure_short_circuits fail_env demo_session "topic"
           "Unauthorized" (snd (deep_research fail_env demo_session "topic" 3 180 10))).
  reflexivity.
Defined.

Definition llama_post (ss : session) (prompt : string) : event :=
  EvPost (llama_endpoint ss) (llama_headers ss) (llama_payload prompt).

Definition status_env (code : Z) : env :=
  const_env (Ret demo_research) (Ret (resp_of code None)).

(** C4 (as stated: after a successful research step both completion calls
    are made and the second one's result is returned) fails: when the first
    call answers 500, the exception propagates and no second call is made. *)
Lemma run_research_first_call_fails :
  (exists e, fst (run_research_process (status_env 500) demo_session "topic") = Raise e)
  /\ length (filter is_post (snd (run_research_process (status_env 500) demo_session "topic"))) = 1.
Proof. split; [eexists; reflexivity | reflexivity]. Qed.

(** C4 (amended): when the research step succeeds, [run_research_process]
    calls [deep_research] on the topic, then [call_llama] on the initial
    prompt (which embeds the topic, the analysis and the sources); if that
    raises, the exception propagates and nothing else is called; otherwise
    it renders the draft, calls [call_llama] on the enhancement prompt
    (which embeds the draft) and returns that call's outcome unchanged. *)
Theorem run_research_success_sequence (E : env) (ss : session) (topic : string)
    (fa : json) (n : Z) (srcs : json) (w1 : list event) :
  deep_research E ss topic 3 180 10 = (Ret (RSuccess fa n srcs), w1) ->
  let p1 := initial_prompt topic (py_str fa) (py_str srcs) in
  w1 = [EvDeepResearch (firecrawl_api_key ss) topic (research_params 3 180 10)]
  /\ contains p1 topic /\ contains p1 (py_str fa) /\ contains p1 (py_str srcs)
  /\ (forall d, contains (enhancement_prompt (py_str d)) (py_str d))
  /\ run_research_process E ss topic =
     match fst (call_llama E ss p1) with
     | Raise e => (Raise e, app w1 [llama_post ss p1])
     | Ret d =>
         let p2 := enhancement_prompt (py_str d) in
         (fst (call_llama E ss p2),
          app w1 [llama_post ss p1; EvMarkdown (py_str d); llama_post ss p2])
     end.
Proof.
  intros H p1.
  destruct (deep_research_trace E ss topic 3 180 10) as [extra [Ht [_ Hs]]].
  rewrite H in Ht, Hs. cbn in Ht, Hs. subst extra.
  split; [exact Ht|].
  split; [unfold p1, initial_prompt; find_in|].
  split; [unfold p1, initial_prompt; find_in|].
  split; [unfold p1, initial_prompt; find_in|].
  split; [intros d; unfold enhancement_prompt; find_in|].
  unfold run_research_process. rewrite H. cbn [bind].
  fold p1.
  pose proof (call_llama_trace E ss p1) as Hc1.
  destruct (call_llama E ss p1) as [[d|e] w2]; cbn [fst snd] in Hc1 |- *; subst w2.
  - pose proof (call_llama_trace E ss (enhancement_prompt (py_str d))) as Hc2.
    cbn [bind emit].
    destruct (call_llama E ss (enhancement_prompt (py_str d))) as [[r|e] w3];
      cbn [fst snd] in Hc2 |- *; subst w3; reflexivity.
  - reflexivity.
Qed.

Lemma run_research_success_sequence_witness :
  let E := status_env 200 in
  let p1 := initial_prompt "topic" "X" "[]" in
  run_research_process E demo_session "topic" =
  match fst (call_llama E demo_session p1) with
  | Raise e =>
      (Raise e, [EvDeepResearch "fc-key" "topic" (research_params 3 180 10);
                 llama_post demo_session p1])
  | Ret d =>
      let p2 := enhancement_prompt (py_str d) in
      (fst (call_llama E demo_session p2),
       [EvDeepResearch "fc-key" "topic" (research_params 3 180 10);
        llama_post demo_session p1; EvMarkdown (py_str d); llama_post demo_session p2])
  end.
Proof.
  exact (proj2 (proj2 (proj2 (proj2 (proj2
    (run_research_success_sequence (status_env 200) demo_session "topic"
       (JStr "X") 0 (JArr []) [EvDeepResearch "fc-key" "topic" (research_params 3 180 10)]
       eq_refl)))))).
Defined.

(** ** Traces of the whole process *)

Definition is_warning (ev : event) : bool :=
  match ev with EvWarning _ => true | _ => false end.

Definition llama_or_render (ev : event) : Prop :=
  is_post ev = true \/ exists s, ev = EvMarkdown s.

Lemma Forall_bind {A B} (P : event -> Prop) (m : M A) (f : A -> M B) :
  Forall P (snd m) -> (forall a, Forall P (snd (f a))) -> Forall P (snd (bind m f)).
Proof.
  intros Hm Hf. rewrite snd_bind. apply Forall_app. split; [exact Hm|].
  destruct (fst m); auto.
Qed.

Lemma Forall_try {A} (P : event -> Prop) (m : M A) (h : exc -> M A) :
  Forall P (snd m) -> (forall e, Forall P (snd (h e))) ->
  Forall P (snd (try_except m h)).
Proof.
  intros Hm Hh. unfold try_except.
  destruct m as [[a|e] w]; cbn in Hm |- *; [exact Hm|].
  destruct (is_Exception _); [|exact Hm].
  specialize (Hh e). destruct (h e) as [r w']. cbn in Hh |- *.
  apply Forall_app; auto.
Qed.

Lemma run_research_trace E ss topic :
  exists rest,
    snd (run_research_process E ss topic) =
    app (snd (deep_research E ss topic 3 180 10)) rest
    /\ Forall llama_or_render rest.
Proof.
  unfold run_research_process. rewrite snd_bind. eexists. split; [reflexivity|].
  destruct (fst (deep_research E ss topic 3 180 10)) as [[fa n s|m]|e];
    cbn beta iota; auto.
  apply Forall_bind.
  { rewrite call_llama_trace. repeat constructor. }
  intros d. apply Forall_bind.
  { cbn. constructor; [right; eexists; reflexivity | constructor]. }
  intros _. apply Forall_bind.
  { rewrite call_llama_trace. repeat constructor. }
  intros r. cbn. constructor.
Qed.

(** C6: every Firecrawl request made by [run_research_process] carries the
    user's topic as query and exactly the limits [maxDepth = 3],
    [timeLimit = 180] and [maxUrls = 10] (with the session's Firecrawl key). *)
Theorem run_research_crawl_params (E : env) (ss : session) (topic k q : string)
    (p : list (string * Z)) :
  In (EvDeepResearch k q p) (snd (run_research_process E ss topic)) ->
  k = firecrawl_api_key ss /\ q = topic
  /\ p = [("maxDepth", 3%Z); ("timeLimit", 180%Z); ("maxUrls", 10%Z)].
Proof.
  intros Hin.
  destruct (run_research_trace E ss topic) as [rest [Ht Hr]].
  destruct (deep_research_trace E ss topic 3 180 10) as [extra [Hd [Hx _]]].
  rewrite Ht, Hd in Hin. apply in_app_or in Hin as [Hin|Hin].
  - destruct Hin as [Heq|Hin].
    + inversion Heq; subst. auto.
    + destruct Hx as [->|[m ->]]; cbn in Hin;
        [contradiction | destruct Hin as [Hin|Hin]; [discriminate | contradiction]].
  - rewrite Forall_forall in Hr. destruct (Hr _ Hin) as [Hp|[s Hs]];
      [discriminate | discriminate].
Qed.

Lemma run_research_crawl_params_witness :
  "fc-key" = firecrawl_api_key demo_session /\ "topic" = "topic"
  /\ research_params 3 180 10 = [("maxDepth", 3%Z); ("timeLimit", 180%Z); ("maxUrls", 10%Z)].
Proof.
  apply (run_research_crawl_params (status_env 200) demo_session "topic" "fc-key" "topic"
           (research_params 3 180 10)).
  vm_compute. left. reflexivity.
Defined.

(** ** The trigger and the session *)

Lemma py_truthy_false (s : string) : py_truthy s = false <-> s = empty.
Proof.
  unfold py_truthy. destruct (String.eqb s empty) eqn:H; cbn.
  - apply String.eqb_eq in H. split; auto.
  - apply String.eqb_neq in H. split; [discriminate | contradiction].
Qed.

Lemma py_truthy_true (s : string) : py_truthy s = true <-> s <> empty.
Proof.
  rewrite <- py_truthy_false. destruct (py_truthy s); split; congruence.
Qed.

Lemma start_research_disabled_spec (topic : string) (ss : session) :
  start_research_disabled topic ss =
  negb (py_truthy topic && py_truthy (llama_endpoint ss) && py_truthy (firecrawl_api_key ss)).
Proof.
  unfold start_research_disabled, py_and.
  destruct (py_truthy topic) eqn:H1;
    [destruct (py_truthy (llama_endpoint ss)) eqn:H2|];
    cbn beta iota; rewrite ?H1, ?H2; reflexivity.
Qed.

Lemma on_start_research_no_warning E ss topic :
  py_truthy topic = true -> py_truthy (firecrawl_api_key ss) = true ->
  py_truthy (llama_endpoint ss) = true ->
  Forall (fun ev => is_warning ev = false) (snd (on_start_research E ss topic)).
Proof.
  intros H1 H2 H3. unfold on_start_research. rewrite H1, H2, H3. cbn [negb].
  apply Forall_try.
  - apply Forall_bind.
    + destruct (run_research_trace E ss topic) as [rest [Ht Hr]]. rewrite Ht.
      apply Forall_app. split.
      * destruct (deep_research_trace E ss topic 3 180 10) as [extra [Hd [Hx _]]].
        rewrite Hd. constructor; [reflexivity|].
        destruct Hx as [->|[m ->]]; repeat constructor.
      * eapply Forall_impl; [|exact Hr].
        intros ev [Hp|[s ->]]; [destruct ev; try discriminate; reflexivity|reflexivity].
    + intros r. apply Forall_bind; [repeat constructor|]. intros _.
      apply Forall_bind; [repeat constructor|]. intros _.
      unfold download_button. destruct r; cbn; repeat constructor.
  - intros e. cbn. repeat constructor.
Qed.

Lemma on_start_research_missing E ss topic :
  topic = empty \/ firecrawl_api_key ss = empty \/ llama_endpoint ss = empty ->
  exists w, on_start_research E ss topic = (Ret tt, [EvWarning w])
    /\ ((w = warn_topic /\ topic = empty)
        \/ (w = warn_firecrawl /\ firecrawl_api_key ss = empty)
        \/ (w = warn_endpoint /\ llama_endpoint ss = empty)).
Proof.
  intros Hm. unfold on_start_research.
  destruct (py_truthy topic) eqn:H1.
  - destruct (py_truthy (firecrawl_api_key ss)) eqn:H2.
    + destruct (py_truthy (llama_endpoint ss)) eqn:H3.
      * exfalso. apply py_truthy_true in H1, H2, H3. tauto.
      * cbn. eexists. split; [reflexivity|]. right; right. split; [reflexivity|].
        now apply py_truthy_false.
    + cbn. eexists. split; [reflexivity|]. right; left. split; [reflexivity|].
      now apply py_truthy_false.
  - cbn. eexists. split; [reflexivity|]. left. split; [reflexivity|].
    now apply py_truthy_false.
Qed.

(** C7: the "Start Research" button is disabled exactly when the topic, the
    LLaMA endpoint or the Firecrawl key is the empty string, enabled exactly
    when all three are non-empty, and the LLaMA API key plays no part. *)
Theorem start_research_enabled_iff (topic : string) (ss : session) :
  (start_research_disabled topic ss = true <->
     topic = empty \/ llama_endpoint ss = empty \/ firecrawl_api_key ss = empty)
  /\ (start_research_disabled topic ss = false <->
     topic <> empty /\ llama_endpoint ss <> empty /\ firecrawl_api_key ss <> empty)
  /\ (forall k, start_research_disabled topic (set_llama_api_key ss k)
                = start_research_disabled topic ss).
Proof.
  split; [|split; [|intros k; reflexivity]]; rewrite start_research_disabled_spec.
  - rewrite <- !py_truthy_false.
    destruct (py_truthy topic), (py_truthy (llama_endpoint ss)),
      (py_truthy (firecrawl_api_key ss)); cbn; intuition congruence.
  - rewrite <- !py_truthy_true.
    destruct (py_truthy topic), (py_truthy (llama_endpoint ss)),
      (py_truthy (firecrawl_api_key ss)); cbn; intuition congruence.
Qed.

Lemma start_research_enabled_iff_witness :
  start_research_disabled empty demo_session = true
  /\ start_research_disabled "topic" demo_session = false.
Proof.
  split.
  - apply (proj2 (proj1 (start_research_enabled_iff empty demo_session))). left. reflexivity.
  - apply (proj2 (proj1 (proj2 (start_research_enabled_iff "topic" demo_session)))).
    split; [|split]; cbv; discriminate.
Defined.

(** C9: whenever the button handler runs, its warning branches are taken
    exactly when the topic, the Firecrawl key or the LLaMA endpoint is
    empty; then a warning naming a missing input is the only event and no
    network request is made. *)
Theorem start_research_warns_iff_missing (E : env) (ss : session) (topic : string) :
  ((exists w, on_start_research E ss topic = (Ret tt, [EvWarning w]))
     <-> topic = empty \/ firecrawl_api_key ss = empty \/ llama_endpoint ss = empty)
  /\ (topic = empty \/ firecrawl_api_key ss = empty \/ llama_endpoint ss = empty ->
      Forall (fun ev => is_network ev = false) (snd (on_start_research E ss topic))
      /\ exists w, snd (on_start_research E ss topic) = [EvWarning w]
         /\ ((w = warn_topic /\ topic = empty)
             \/ (w = warn_firecrawl /\ firecrawl_api_key ss = empty)
             \/ (w = warn_endpoint /\ llama_endpoint ss = empty))).
Proof.
  split; [split|].
  - intros [w Hw].
    destruct (py_truthy topic) eqn:H1; [|left; now apply py_truthy_false].
    destruct (py_truthy (firecrawl_api_key ss)) eqn:H2;
      [|right; left; now apply py_truthy_false].
    destruct (py_truthy (llama_endpoint ss)) eqn:H3;
      [|right; right; now apply py_truthy_false].
    pose proof (on_start_research_no_warning E ss topic H1 H2 H3) as Hn.
    rewrite Hw in Hn. inversion Hn as [|? ? Hx]. discriminate Hx.
  - intros Hm. destruct (on_start_research_missing E ss topic Hm) as [w [Hw _]].
    exists w. exact Hw.
  - intros Hm. destruct (on_start_research_missing E ss topic Hm) as [w [Hw Hc]].
    rewrite Hw. cbn. split; [repeat constructor|].
    exists w. split; [reflexivity|exact Hc].
Qed.

Lemma start_research_warns_iff_missing_witness :
  Forall (fun ev => is_network ev = false)
         (snd (on_start_research (status_env 200) demo_session empty))
  /\ exists w, snd (on_start_research (status_env 200) demo_session empty) = [EvWarning w]
     /\ ((w = warn_topic /\ empty = empty)
         \/ (w = warn_firecrawl /\ firecrawl_api_key demo_session = empty)
         \/ (w = warn_endpoint /\ llama_endpoint demo_session = empty)).
Proof.
  apply (proj2 (start_research_warns_iff_missing (status_env 200) demo_session empty)).
  left. reflexivity.
Defined.

(** The topic cleared in the same interaction as the click: this rerun
    computes [disabled=True], the click is still delivered, and the handler
    takes its first warning branch without any request. *)
Lemma trigger_cleared_topic_warns :
  start_research_disabled empty demo_session = true
  /\ trigger (status_env 200) demo_session empty true = (Ret tt, [EvWarning warn_topic]).
Proof. split; reflexivity. Qed.

Lemma script_rerun_stored (c : credential) (i : sidebar_inputs) (r : raw_session) :
  stored c (script_rerun i r) =
  Some (if py_truthy (entered c i) then entered c i else init_default (stored c r)).
Proof.
  destruct c; unfold script_rerun, sidebar_update; cbn;
    destruct (py_truthy (in_llama_endpoint i)), (py_truthy (in_llama_api_key i)),
      (py_truthy (in_firecrawl_api_key i)); reflexivity.
Qed.

(** C10: each rerun overwrites a stored credential only with a non-empty
    entered value; an empty entry leaves the stored value unchanged; so once
    a stored credential is non-empty it stays non-empty over any sequence of
    reruns. *)
Theorem session_credentials_monotone :
  (forall c i r,
     stored c (script_rerun i r) =
     Some (if py_truthy (entered c i) then entered c i else init_default (stored c r)))
  /\ (forall c i r s,
        entered c i = empty -> stored c r = Some s -> stored c (script_rerun i r) = Some s)
  /\ (forall c runs r s,
        stored c r = Some s -> s <> empty ->
        exists s', stored c (run_session runs r) = Some s' /\ s' <> empty).
Proof.
  split; [exact script_rerun_stored|split].
  - intros c i r s He Hs. rewrite script_rerun_stored, He, Hs. reflexivity.
  - intros c runs. induction runs as [|i runs IH]; intros r s Hs Hne; cbn.
    + exists s. auto.
    + apply (IH _ (if py_truthy (entered c i) then entered c i else s)).
      * rewrite script_rerun_stored, Hs. reflexivity.
      * destruct (py_truthy (entered c i)) eqn:Ht; [now apply py_truthy_true|exact Hne].
Qed.

Definition demo_raw : raw_session :=
  {| ss_llama_api_key := None; ss_llama_endpoint := Some "https://llama.example/v1";
     ss_firecrawl_api_key := None |}.

Definition cleared_inputs : sidebar_inputs :=
  {| in_llama_endpoint := empty; in_llama_api_key := empty; in_firecrawl_api_key := empty |}.

Lemma session_credentials_monotone_witness :
  stored CEndpoint (script_rerun cleared_inputs demo_raw) = Some "https://llama.example/v1"
  /\ exists s', stored CEndpoint (run_session [cleared_inputs; cleared_inputs] demo_raw) = Some s'
                /\ s' <> empty.
Proof.
  split.
  - apply (proj1 (proj2 session_credentials_monotone) CEndpoint cleared_inputs demo_raw
             "https://llama.example/v1"); reflexivity.
  - apply (proj2 (proj2 session_credentials_monotone) CEndpoint
             [cleared_inputs; cleared_inputs] demo_raw "https://llama.example/v1");
      [reflexivity | cbv; discriminate].
Defined.

(** * Further properties of the script *)

(** ** call_llama: the request and its failures *)

(** Every [call_llama] sends exactly one POST to the stored endpoint with
    the JSON content type; the [Authorization: Bearer <key>] header is sent
    exactly when the stored LLaMA key is non-empty, and carries that key. *)
Theorem call_llama_request_headers (E : env) (ss : session) (prompt : string) :
  snd (call_llama E ss prompt) =
    [EvPost (llama_endpoint ss) (llama_headers ss) (llama_payload prompt)]
  /\ In ("Content-Type", "application/json") (llama_headers ss)
  /\ (In ("Authorization", "Bearer " ++ llama_api_key ss) (llama_headers ss)
      <-> llama_api_key ss <> empty)
  /\ (forall v, In ("Authorization", v) (llama_headers ss) ->
                v = "Bearer " ++ llama_api_key ss).
Proof.
  split; [apply call_llama_trace|].
  unfold llama_headers.
  destruct (py_truthy (llama_api_key ss)) eqn:Hk; cbn.
  - apply py_truthy_true in Hk.
    split; [left; reflexivity|]. split; [split; auto|].
    intros v [H|[H|[]]]; inversion H; reflexivity.
  - apply py_truthy_false in Hk.
    split; [left; reflexivity|]. split.
    + split; [intros [H|[]]; discriminate | contradiction].
    + intros v [H|[]]; discriminate.
Qed.

(** A transport error raised by [requests.post] propagates out of
    [call_llama] unchanged, after a single request: there is no retry. *)
Theorem call_llama_transport_error (E : env) (ss : session) (prompt : string) (e : exc) :
  requests_post E (llama_endpoint ss) (llama_headers ss) (llama_payload prompt) = Raise e ->
  call_llama E ss prompt =
    (Raise e, [EvPost (llama_endpoint ss) (llama_headers ss) (llama_payload prompt)]).
Proof.
  intros H. unfold call_llama. cbn [bind emit]. rewrite H. reflexivity.
Qed.

Definition transport_env : env :=
  const_env (Ret demo_research) (Raise (PyExc RequestException "Connection refused")).

Lemma call_llama_transport_error_witness :
  call_llama transport_env demo_session "p" =
    (Raise (PyExc RequestException "Connection refused"),
     [EvPost (llama_endpoint demo_session) (llama_headers demo_session) (llama_payload "p")]).
Proof.
  apply (call_llama_transport_error transport_env demo_session "p"). reflexivity.
Defined.

(** A 200 answer of the wrong shape raises: a body that is not JSON raises
    [JSONDecodeError]; a list whose element 0 is a dict without
    [generated_text] raises [KeyError('generated_text')]; a dict whose
    [generated_text] is not a string raises [AttributeError] (no [.strip]). *)
Theorem call_llama_malformed_200 (E : env) (ss : session) (prompt : string)
    (resp : http_response) :
  requests_post E (llama_endpoint ss) (llama_headers ss) (llama_payload prompt) = Ret resp ->
  status_code resp = 200%Z ->
  (response_json resp = None ->
   exists m, fst (call_llama E ss prompt) = Raise (PyExc JSONDecodeError m))
  /\ (forall kvs rest,
        response_json resp = Some (JArr (JObj kvs :: rest)) ->
        dict_lookup kvs "generated_text" = None ->
        fst (call_llama E ss prompt) = Raise (PyExc KeyError (repr_str "generated_text")))
  /\ (forall kvs v,
        response_json resp = Some (JObj kvs) ->
        dict_lookup kvs "generated_text" = Some v ->
        (forall s, v <> JStr s) ->
        exists m, fst (call_llama E ss prompt) = Raise (PyExc AttributeError m)).
Proof.
  intros Hpost Hst. rewrite call_llama_fst, Hpost. unfold llama_result.
  rewrite Hst. cbn [Z.eqb Pos.eqb]. rewrite fst_bind. unfold response_json_value.
  split; [|split].
  - intros Hj. rewrite Hj. eexists. reflexivity.
  - intros kvs rest Hj Hg. rewrite Hj. cbn. rewrite Hg. reflexivity.
  - intros kvs v Hj Hg Hv. rewrite Hj. cbn. rewrite Hg.
    destruct v; cbn; try (eexists; reflexivity).
    exfalso. exact (Hv s eq_refl).
Qed.

Lemma call_llama_malformed_200_witness :
  exists m, fst (call_llama (const_env (Ret demo_research) (Ret (resp_of 200 None)))
                            demo_session "p") = Raise (PyExc JSONDecodeError m).
Proof.
  apply (proj1 (call_llama_malformed_200
                  (const_env (Ret demo_research) (Ret (resp_of 200 None)))
                  demo_session "p" (resp_of 200 None) eq_refl eq_refl)).
  reflexivity.
Defined.

(** ** deep_research: reporting and edge cases *)

Lemma deep_research_fst E ss q a b c :
  fst (deep_research E ss q a b c) =
  match fst (research_body E ss q a b c) with
  | Ret r => Ret r
  | Raise e => if is_Exception (exc_cls e) then Ret (RFailure (exc_str e)) else Raise e
  end.
Proof.
  unfold deep_research, try_except.
  destruct (research_body E ss q a b c) as [[r|[cls m]] w]; cbn; [reflexivity|].
  destruct (is_Exception cls); reflexivity.
Qed.






(** When the crawl result has [data.finalAnalysis] and a list
    [data.sources], [deep_research] succeeds with that analysis, that list
    and [sources_count] equal to the number of sources. *)
Theorem deep_research_success_count (E : env) (ss : session) (q : string) (a b c : Z)
    (results data fa : json) (l : list json) :
  firecrawl_deep_research E (firecrawl_api_key ss) q (research_params a b c) = Ret results ->
  py_getitem results "data" = Ret data ->
  py_getitem data "finalAnalysis" = Ret fa ->
  py_getitem data "sources" = Ret (JArr l) ->
  fst (deep_research E ss q a b c) = Ret (RSuccess fa (Z.of_nat (length l)) (JArr l)).
Proof.
  intros Hf Hd Ha Hs. rewrite deep_research_fst, research_body_fst, Hf, Hd, Ha, Hs.
  reflexivity.
Qed.

Lemma deep_research_success_count_witness :
  fst (deep_research (status_env 200) demo_session "topic" 3 180 10)
  = Ret (RSuccess (JStr "X") 0 (JArr [])).
Proof.
  apply (deep_research_success_count (status_env 200) demo_session "topic" 3 180 10
           demo_research (JObj [("finalAnalysis", JStr "X"); ("sources", JArr [])])
           (JStr "X") []); reflexivity.
Defined.

(** ** run_research_process: how many requests *)

Definition is_research (ev : event) : bool :=
  match ev with EvDeepResearch _ _ _ => true | _ => false end.

Lemma run_research_rest E ss topic :
  exists rest,
    snd (run_research_process E ss topic) = app (snd (deep_research E ss topic 3 180 10)) rest
    /\ (rest = []
        \/ (exists p1, rest = [llama_post ss p1])
        \/ (exists p1 s p2, rest = [llama_post ss p1; EvMarkdown s; llama_post ss p2])).
Proof.
  unfold run_research_process. rewrite snd_bind. eexists. split; [reflexivity|].
  destruct (fst (deep_research E ss topic 3 180 10)) as [[fa n s|m]|e];
    cbn beta iota; [|left; reflexivity | left; reflexivity].
  rewrite snd_bind, call_llama_trace.
  destruct (fst (call_llama E ss _)) as [d|e]; cbn beta iota.
  - rewrite snd_bind. cbn [emit fst snd app]. rewrite snd_bind, call_llama_trace.
    destruct (fst (call_llama E ss _)); cbn [ret fst snd app];
      right; right; do 3 eexists; reflexivity.
  - right; left. eexists. reflexivity.
Qed.

(** One run of [run_research_process] makes exactly one Firecrawl request
    and at most two completion requests (none when the research step
    fails): nothing is retried. *)
Theorem run_research_request_counts (E : env) (ss : session) (topic : string) :
  length (filter is_research (snd (run_research_process E ss topic))) = 1
  /\ length (filter is_post (snd (run_research_process E ss topic))) <= 2
  /\ (forall m, fst (deep_research E ss topic 3 180 10) = Ret (RFailure m) ->
      length (filter is_post (snd (run_research_process E ss topic))) = 0).
Proof.
  destruct (run_research_rest E ss topic) as [rest [Hr Hs]].
  destruct (deep_research_trace E ss topic 3 180 10) as [extra [Hd [Hx _]]].
  assert (Hfail : forall m, fst (deep_research E ss topic 3 180 10) = Ret (RFailure m) ->
                   rest = []).
  { intros m Hm. unfold run_research_process in Hr. rewrite snd_bind, Hm in Hr.
    cbn in Hr. apply (f_equal (@length event)) in Hr.
    rewrite !length_app in Hr. destruct rest; [reflexivity | cbn in Hr; lia]. }
  rewrite Hr, Hd, !filter_app, !length_app.
  split; [|split].
  - destruct Hx as [->|[m' ->]];
      destruct Hs as [->|[[p1 ->]|[p1 [s [p2 ->]]]]]; reflexivity.
  - destruct Hx as [->|[m' ->]];
      destruct Hs as [->|[[p1 ->]|[p1 [s [p2 ->]]]]]; cbn; lia.
  - intros m Hm. rewrite (Hfail m Hm).
    destruct Hx as [->|[m' ->]]; reflexivity.
Qed.

Lemma run_research_request_counts_witness :
  length (filter is_post (snd (run_research_process fail_env demo_session "topic"))) = 0.
Proof.
  apply (proj2 (proj2 (run_research_request_counts fail_env demo_session "topic"))
           "Unauthorized").
  reflexivity.
Defined.

(** ** The trigger: what the user is shown *)

Lemma run_research_on_failure E ss topic m :
  fst (deep_research E ss topic 3 180 10) = Ret (RFailure m) ->
  run_research_process E ss topic =
    (Ret (JStr research_failed_msg), snd (deep_research E ss topic 3 180 10)).
Proof.
  intros Hm. unfold run_research_process.
  destruct (deep_research E ss topic 3 180 10) as [o w]. cbn in Hm. subst o.
  cbn. now rewrite app_nil_r.
Qed.

Definition report_file_name (research_topic : string) : string :=
  replace_space research_topic ++ "_report.md".

(** When the research step fails, the trigger does not stop there: it
    renders the failure string as the "Enhanced Research Report" and offers
    it for download. *)
Theorem on_start_research_failure_report (E : env) (ss : session) (topic m : string) :
  topic <> empty -> firecrawl_api_key ss <> empty -> llama_endpoint ss <> empty ->
  fst (deep_research E ss topic 3 180 10) = Ret (RFailure m) ->
  on_start_research E ss topic =
    (Ret tt, app (snd (deep_research E ss topic 3 180 10))
                 [EvMarkdown "## Enhanced Research Report";
                  EvMarkdown research_failed_msg;
                  EvDownload research_failed_msg (report_file_name topic)]).
Proof.
  intros H1 H2 H3 Hm.
  apply py_truthy_true in H1, H2, H3.
  unfold on_start_research. rewrite H1, H2, H3. cbn [negb].
  rewrite (run_research_on_failure E ss topic m Hm). reflexivity.
Qed.

Lemma on_start_research_failure_report_witness :
  on_start_research fail_env demo_session "my topic" =
    (Ret tt, app (snd (deep_research fail_env demo_session "my topic" 3 180 10))
                 [EvMarkdown "## Enhanced Research Report";
                  EvMarkdown research_failed_msg;
                  EvDownload research_failed_msg (report_file_name "my topic")]).
Proof.
  apply (on_start_research_failure_report fail_env demo_session "my topic" "Unauthorized");
    [cbv; discriminate | cbv; discriminate | cbv; discriminate | reflexivity].
Defined.

(** When the research process raises, an [Exception] is shown as
    ["An error occurred: " + str(e)] and nothing is rendered or offered for
    download; an exception outside [Exception] propagates out of the
    trigger. *)
Theorem on_start_research_error (E : env) (ss : session) (topic : string) (e : exc) :
  topic <> empty -> firecrawl_api_key ss <> empty -> llama_endpoint ss <> empty ->
  fst (run_research_process E ss topic) = Raise e ->
  on_start_research E ss topic =
    if is_Exception (exc_cls e)
    then (Ret tt, app (snd (run_research_process E ss topic))
                      [EvError ("An error occurred: " ++ exc_str e)])
    else (Raise e, snd (run_research_process E ss topic)).
Proof.
  intros H1 H2 H3 He.
  apply py_truthy_true in H1, H2, H3.
  unfold on_start_research. rewrite H1, H2, H3. cbn [negb].
  destruct (run_research_process E ss topic) as [o w]. cbn in He. subst o.
  destruct e as [cls msg]. unfold try_except. cbn.
  destruct (is_Exception cls); reflexivity.
Qed.

Lemma on_start_research_error_witness :
  on_start_research (status_env 500) demo_session "topic" =
    (Ret tt, app (snd (run_research_process (status_env 500) demo_session "topic"))
                 [EvError ("An error occurred: " ++ "LLaMA API error: 500 - body")]).
Proof.
  apply (on_start_research_error (status_env 500) demo_session "topic"
           (PyExc Exception "LLaMA API error: 500 - body"));
    [cbv; discriminate | cbv; discriminate | cbv; discriminate | reflexivity].
Defined.

Lemma replace_space_no_space (s : string) :
  has_char " "%char (replace_space s) = false /\ String.length (replace_space s) = String.length s.
Proof.
  induction s as [|c s [IH1 IH2]]; [split; reflexivity|].
  change (replace_space (String c s))
    with (String (if Ascii.eqb c " "%char then "_"%char else c) (replace_space s)).
  change (has_char " "%char (String (if Ascii.eqb c " "%char then "_"%char else c)
                                     (replace_space s)))
    with (Ascii.eqb " "%char (if Ascii.eqb c " "%char then "_"%char else c)
          || has_char " "%char (replace_space s)).
  rewrite IH1. cbn [String.length]. rewrite IH2. split; [|reflexivity].
  destruct (Ascii.eqb_spec c " "%char) as [->|Hne]; [reflexivity|].
  destruct (Ascii.eqb_spec " "%char c); [congruence|reflexivity].
Qed.

(** Every download the trigger offers is named
    [<topic with spaces replaced by underscores>_report.md]: that name has
    no space and the topic part keeps the topic's length. *)
Theorem trigger_download_name (E : env) (ss : session) (topic : string) (clicked : bool) :
  (forall data fname, In (EvDownload data fname) (snd (trigger E ss topic clicked)) ->
     fname = report_file_name topic)
  /\ has_char " "%char (replace_space topic) = false
  /\ String.length (replace_space topic) = String.length topic.
Proof.
  split; [|apply replace_space_no_space].
  intros data fname Hin.
  set (P := fun ev => forall d f, ev = EvDownload d f -> f = report_file_name topic).
  assert (Hall : Forall P (snd (trigger E ss topic clicked))).
  { unfold trigger. destruct (start_research_button _); cbn [ret snd];
      [|constructor].
    unfold on_start_research.
    destruct (negb (py_truthy topic)); [repeat constructor; intros ? ? H; discriminate|].
    destruct (negb (py_truthy (firecrawl_api_key ss)));
      [repeat constructor; intros ? ? H; discriminate|].
    destruct (negb (py_truthy (llama_endpoint ss)));
      [repeat constructor; intros ? ? H; discriminate|].
    apply Forall_try.
    - apply Forall_bind.
      + destruct (run_research_trace E ss topic) as [rest [Ht Hr]]. rewrite Ht.
        apply Forall_app. split.
        * destruct (deep_research_trace E ss topic 3 180 10) as [extra [Hd [Hx _]]].
          rewrite Hd. constructor; [intros ? ? H; discriminate|].
          destruct Hx as [->|[m ->]]; repeat constructor; intros ? ? H; discriminate.
        * eapply Forall_impl; [|exact Hr].
          intros ev [Hp|[s ->]] d f Hd; [subst ev; discriminate | discriminate].
      + intros r. apply Forall_bind; [repeat constructor; intros ? ? H; discriminate|].
        intros _. apply Forall_bind; [repeat constructor; intros ? ? H; discriminate|].
        intros _. unfold download_button.
        destruct r; cbn; repeat constructor.
        intros d f H. inversion H. reflexivity.
    - intros e. cbn. repeat constructor. intros ? ? H; discriminate. }
  rewrite Forall_forall in Hall. exact (Hall _ Hin data fname eq_refl).
Qed.

Lemma trigger_download_name_witness :
  "a_b_report.md" =
  report_file_name "a b".
Proof.
  symmetry.
  apply (proj1 (trigger_download_name (gen_env (JArr [JObj [("generated_text", JStr "R")]]))
                  demo_session "a b" true) "R" "a_b_report.md").
  vm_compute. right. right. right. right. right. right. left. reflexivity.
Defined.

(** ** Session reruns *)

(** Rerunning the script with the same sidebar entries leaves the session
    state as the first rerun left it. *)
Theorem script_rerun_idempotent (i : sidebar_inputs) (r : raw_session) :
  script_rerun i (script_rerun i r) = script_rerun i r.
Proof.
  destruct i as [e k f], r as [rk re rf].
  unfold script_rerun, sidebar_update, init_session, store. cbn.
  destruct (py_truthy e), (py_truthy k), (py_truthy f); reflexivity.
Qed.

Lemma run_session_keeps_nonempty c runs r s :
  stored c r = Some s -> s <> empty ->
  exists s', stored c (run_session runs r) = Some s' /\ s' <> empty.
Proof.
  revert r s. induction runs as [|i runs IH]; intros r s Hs Hne; cbn.
  - exists s. auto.
  - apply (IH _ (if py_truthy (entered c i) then entered c i else s)).
    + rewrite script_rerun_stored, Hs. reflexivity.
    + destruct (py_truthy (entered c i)) eqn:Ht; [now apply py_truthy_true|exact Hne].
Qed.

(** Once the endpoint and the Firecrawl key are stored non-empty, the
    "Start Research" button stays enabled for any non-empty topic over any
    later reruns, whatever is typed into (or cleared from) the sidebar. *)
Theorem start_button_stays_enabled (runs : list sidebar_inputs) (r : raw_session)
    (ep key topic : string) :
  ss_llama_endpoint r = Some ep -> ep <> empty ->
  ss_firecrawl_api_key r = Some key -> key <> empty ->
  topic <> empty ->
  start_research_disabled topic (init_session (run_session runs r)) = false.
Proof.
  intros He Hep Hk Hkey Ht.
  destruct (run_session_keeps_nonempty CEndpoint runs r ep He Hep) as [ep' [He' Hep']].
  destruct (run_session_keeps_nonempty CFirecrawlKey runs r key Hk Hkey) as [k' [Hk' Hk'']].
  cbn in He', Hk'.
  rewrite start_research_disabled_spec. unfold init_session. cbn.
  rewrite He', Hk'. cbn.
  apply py_truthy_true in Ht, Hep', Hk''. rewrite Ht, Hep', Hk''. reflexivity.
Qed.

Definition configured_raw : raw_session :=
  {| ss_llama_api_key := Some empty; ss_llama_endpoint := Some "https://llama.example/v1";
     ss_firecrawl_api_key := Some "fc-key" |}.

Lemma start_button_stays_enabled_witness :
  start_research_disabled "topic"
    (init_session (run_session [cleared_inputs; cleared_inputs] configured_raw)) = false.
Proof.
  apply (start_button_stays_enabled [cleared_inputs; cleared_inputs] configured_raw
           "https://llama.example/v1" "fc-key" "topic");
    first [reflexivity | cbv; discriminate].
Defined.

Definition keyed_session : session :=
  {| llama_api_key := "hf-key"; llama_endpoint := "https://llama.example/v1";
     firecrawl_api_key := "fc-key" |}.

Lemma call_llama_request_headers_witness :
  In ("Authorization", "Bearer " ++ "hf-key") (llama_headers keyed_session).
Proof.
  apply (proj2 (proj1 (proj2 (proj2
    (call_llama_request_headers (status_env 200) keyed_session "p"))))).
  cbv. discriminate.
Defined.
